(** * VLAN hosts and the VLAN star topology (examples/vlanhost.py)

    A shallow embedding of [VLANHost.config] and [VLANStarTopo.build],
    with the properties of the retagging procedure and of the topology
    generator stated and proved over it. *)

From Stdlib Require Import ZArith Lia Ascii.
From stdpp Require Import base list numbers strings pretty gmap fin_maps.

Local Open Scope Z_scope.

(** ** Python values *)

(** The values that travel through keyword parameters: [None], integers
    and strings. *)
Inductive PyVal : Type :=
  | VNone
  | VInt (z : Z)
  | VStr (s : string).

#[global] Instance PyVal_eq_dec : EqDecision PyVal.
Proof. solve_decision. Defined.

(** [str(v)], as an f-string replacement field [{v}] formats it. *)
Definition py_str (v : PyVal) : string :=
  match v with
  | VNone => "None"
  | VInt z => pretty z
  | VStr s => s
  end.

(** [range(k)]: the integers [0 .. k-1], empty when [k <= 0]. *)
Definition range (k : Z) : list Z := seqZ 0 k.

(** ** Hosts, interfaces and the effects of configuration *)

(** Exceptions that end a configuration call. *)
Inductive Exn : Type :=
  | AssertionError (msg : string)
  | KeyError (key : string)
  | AttributeError (msg : string)
  | DanglingRef
  | OtherError (msg : string).

(** What an observer of a host sees: the shell commands passed to the
    command-execution primitive and the calls of the generic
    configuration step. *)
Inductive Event : Type :=
  | Cmd (c : string)
  | SuperConfig (params : gmap string PyVal).

(** Interface objects are shared and renamed in place, so the host
    refers to them through references into a store. *)
Abbreviation IntfRef := positive.

(** Modelled from the spec: the interface object of the framework, with
    its name and its link association. *)
Record Intf : Type := mkIntf {
  name : string;
  link : option N
}.

(** Modelled from the spec: the host base capability ([Host] of the
    framework): a default interface, the mutable table from interface
    names to interface handles, and the interface objects themselves;
    [trace] records what the host did. *)
Record Host : Type := mkHost {
  default_intf : option IntfRef;
  nameToIntf : gmap string IntfRef;
  heap : gmap IntfRef Intf;
  trace : list Event
}.

Inductive Res (A : Type) : Type :=
  | Ok (a : A)
  | Raise (e : Exn).
Arguments Ok {A} a.
Arguments Raise {A} e.

(** A computation on a host: it returns or raises, and either way the
    mutations it made stay. *)
Definition M (A : Type) : Type := Host → Res A * Host.

#[global] Instance M_ret : MRet M := λ A a h, (Ok a, h).
#[global] Instance M_bind : MBind M := λ A B f m h,
  match m h with
  | (Ok a, h') => f a h'
  | (Raise e, h') => (Raise e, h')
  end.

Definition raise {A : Type} (e : Exn) : M A := λ h, (Raise e, h).

(** [assert b, msg] *)
Definition py_assert (b : bool) (msg : string) : M unit :=
  if b then mret () else raise (AssertionError msg).

(** [d.pop(key, default)]: the value and the dictionary without the key. *)
Definition dict_pop (key : string) (default : PyVal)
    (d : gmap string PyVal) : PyVal * gmap string PyVal :=
  match d !! key with
  | Some v => (v, delete key d)
  | None => (default, d)
  end.

(** [d[key]] *)
Definition dict_getitem (d : gmap string PyVal) (key : string) : M PyVal :=
  match d !! key with
  | Some v => mret v
  | None => raise (KeyError key)
  end.

Module HostOps.

(** Modelled from the spec: the [default_interface()] accessor; it
    yields [None] for a host without interfaces. *)
Definition defaultIntf : M (option IntfRef) := λ h, (Ok (default_intf h), h).

(** Modelled from the spec: formatting an interface gives its current
    name (the commands are parameterized by the interface name);
    [None] formats as any Python [None]. *)
Definition str_intf (intf : option IntfRef) : M string := λ h,
  match intf with
  | None => (Ok "None", h)
  | Some i =>
      match heap h !! i with
      | Some o => (Ok (name o), h)
      | None => (Raise DanglingRef, h)
      end
  end.

(** Attribute access on the value [intf]: [None] has no attributes. *)
Definition deref (intf : option IntfRef) : M IntfRef :=
  match intf with
  | Some i => mret i
  | None => raise (AttributeError "'NoneType' object has no attribute 'name'")
  end.

(** [intf.name = new]: the object is renamed in place. *)
Definition setattr_name (i : IntfRef) (new : string) : M unit := λ h,
  match heap h !! i with
  | Some o =>
      (Ok (), {| default_intf := default_intf h;
                 nameToIntf := nameToIntf h;
                 heap := <[ i := {| name := new; link := link o |} ]> (heap h);
                 trace := trace h |})
  | None => (Raise DanglingRef, h)
  end.

(** [self.nameToIntf[ key ] = i] *)
Definition nameToIntf_setitem (key : string) (i : IntfRef) : M unit := λ h,
  (Ok (), {| default_intf := default_intf h;
             nameToIntf := <[ key := i ]> (nameToIntf h);
             heap := heap h;
             trace := trace h |}).

Definition log (e : Event) (h : Host) : Host :=
  {| default_intf := default_intf h;
     nameToIntf := nameToIntf h;
     heap := heap h;
     trace := trace h ++ [e] |}.

(** Modelled from the spec: the command-execution primitive; it runs
    the command synchronously and returns its output, whatever the
    command did.  [shell] stands for the namespace the command runs
    in. *)
Definition cmd (shell : Host → string → string) (c : string) : M string :=
  λ h, (Ok (shell h c), log (Cmd c) h).

(** The name of the interface [i] refers to. *)
Definition intf_name (h : Host) (i : IntfRef) : option string :=
  name <$> heap h !! i.

(** The commands a host has issued, oldest first. *)
Definition cmds_of (tr : list Event) : list string :=
  omap (λ e, match e with Cmd c => Some c | SuperConfig _ => None end) tr.

End HostOps.

(** ** VLANHost *)

Module VLANHost.
Import HostOps.

Section Config.

(** The result type of the generic configuration step, the step
    itself ([Host.config] of the framework) and the shell. *)
Context {R : Type}.
Variable super_config : gmap string PyVal → M R.
Variable shell : Host → string → string.

(** The call of the parent's [config] with the remaining parameters. *)
Definition call_super (params : gmap string PyVal) : M R :=
  λ h, super_config params (log (SuperConfig params) h).

Definition config (params : gmap string PyVal) : M R :=
  let '(vlan, params) := dict_pop "vlan" VNone params in
  py_assert (bool_decide (vlan ≠ VNone))
    "VLANHost without vlan in instantiation";;
  r ← call_super params;
  intf ← defaultIntf;
  ip_info ← dict_getitem params "ip";
  s ← str_intf intf;
  let new_intf := s +:+ "." +:+ py_str vlan in
  (* remove IP from default, "physical" interface *)
  s ← str_intf intf;
  cmd shell ("ip address del " +:+ py_str ip_info +:+ " dev " +:+ s);;
  (* create VLAN interface *)
  s ← str_intf intf;
  cmd shell ("ip link add link " +:+ s +:+ " name " +:+ new_intf
             +:+ " type vlan id " +:+ py_str vlan);;
  (* assign the host's IP to the VLAN interface *)
  cmd shell ("ip address add " +:+ py_str ip_info +:+ " dev " +:+ new_intf);;
  cmd shell ("ip link set up dev " +:+ new_intf);;
  (* update the (Mininet) interface to refer to VLAN interface name *)
  i ← deref intf;
  setattr_name i new_intf;;
  (* add VLAN interface to host's name to intf map *)
  nameToIntf_setitem new_intf i;;
  mret r.

(** The four retagging commands, for the interface name [I], the
    VLAN id [V] and the address [P]. *)
Definition retag_cmds (I : string) (V P : PyVal) : list Event :=
  let N := I +:+ "." +:+ py_str V in
  [ Cmd ("ip address del " +:+ py_str P +:+ " dev " +:+ I);
    Cmd ("ip link add link " +:+ I +:+ " name " +:+ N
         +:+ " type vlan id " +:+ py_str V);
    Cmd ("ip address add " +:+ py_str P +:+ " dev " +:+ N);
    Cmd ("ip link set up dev " +:+ N) ].

(** The host a successful retagging leaves, from the host [h1] the
    generic step left. *)
Definition retagged (h1 : Host) (i : IntfRef) (o : Intf)
    (V P : PyVal) : Host :=
  let N := name o +:+ "." +:+ py_str V in
  {| default_intf := default_intf h1;
     nameToIntf := <[ N := i ]> (nameToIntf h1);
     heap := <[ i := {| name := N; link := link o |} ]> (heap h1);
     trace := trace h1 ++ retag_cmds (name o) V P |}.

End Config.

End VLANHost.

(** ** Topology descriptors *)

Module Topo.

(** Modelled from the spec: the topology base capability ([Topo] of
    the framework, with [addSwitch], [addHost] and [addLink]) is not
    part of the example file.  A topology is a table of node
    descriptors keyed by the unique node name, kept in creation order,
    and a collection of links.  A host descriptor carries its class
    and its extra parameters. *)
Record NodeSpec : Type := mkNode {
  isSwitch : bool;
  cls : option string;
  opts : gmap string PyVal
}.

Record t : Type := mkTopo {
  nodes : list (string * NodeSpec);
  links : list (string * string)
}.

Definition empty : t := {| nodes := []; links := [] |}.

(** Adding attributes to a node that already exists updates the
    descriptor stored under that name. *)
Definition merge (old new : NodeSpec) : NodeSpec :=
  {| isSwitch := isSwitch old || isSwitch new;
     cls := match cls new with Some c => Some c | None => cls old end;
     opts := opts new ∪ opts old |}.

Fixpoint add_node (name : string) (spec : NodeSpec)
    (ns : list (string * NodeSpec)) : list (string * NodeSpec) :=
  match ns with
  | [] => [(name, spec)]
  | (name', spec') :: ns' =>
      if decide (name' = name) then (name', merge spec' spec) :: ns'
      else (name', spec') :: add_node name spec ns'
  end.

(** Modelled from the spec: [add_switch(name)], returning the name. *)
Definition addSwitch (name : string) (self : t) : string * t :=
  (name, {| nodes := add_node name (mkNode true None ∅) (nodes self);
            links := links self |}).

(** Modelled from the spec: [add_host(name, class, extra_params)],
    returning the name. *)
Definition addHost (name : string) (c : option string)
    (params : gmap string PyVal) (self : t) : string * t :=
  (name, {| nodes := add_node name (mkNode false c params) (nodes self);
            links := links self |}).

(** Modelled from the spec: [add_link(host, switch)]. *)
Definition addLink (node1 node2 : string) (self : t) : t :=
  {| nodes := nodes self; links := links self ++ [(node1, node2)] |}.

Definition hosts (self : t) : list (string * NodeSpec) :=
  filter (λ p, isSwitch p.2 = false) (nodes self).

Definition switches (self : t) : list (string * NodeSpec) :=
  filter (λ p, isSwitch p.2 = true) (nodes self).

(** The VLAN tag a host descriptor carries, if any. *)
Definition vlan_of (p : string * NodeSpec) : option PyVal :=
  opts p.2 !! "vlan".

Definition tagged (self : t) : list (string * NodeSpec) :=
  filter (λ p, is_Some (vlan_of p)) (hosts self).

Definition tagged_with (v : PyVal) (self : t) : list (string * NodeSpec) :=
  filter (λ p, vlan_of p = Some v) (hosts self).

End Topo.

(** ** VLANStarTopo *)

Module VLANStarTopo.
Import Topo.

(** The name [f'h{j+1}-{vlan}'] of a host in a VLAN. *)
Definition vlan_host_name (j vlan : Z) : string :=
  "h" +:+ pretty (j + 1) +:+ "-" +:+ pretty vlan.

(** The name [f'h{j+1}'] of a host outside every VLAN. *)
Definition plain_host_name (j : Z) : string :=
  "h" +:+ pretty (j + 1).

(** Body of the inner loop of the first [for]. *)
Definition add_vlan_host (s1 : string) (vlan : Z) (self : t) (j : Z) : t :=
  let name := vlan_host_name j vlan in
  let '(h, self) :=
    addHost name (Some "VLANHost") {[ "vlan" := VInt vlan ]} self in
  addLink h s1 self.

(** Body of the outer loop of the first [for]. *)
Definition add_vlan_group (s1 : string) (n vlanBase : Z) (self : t) (i : Z) : t :=
  let vlan := vlanBase + i in
  foldl (add_vlan_host s1 vlan) self (range n).

(** Body of the second [for]. *)
Definition add_plain_host (s1 : string) (self : t) (j : Z) : t :=
  let '(h, self) := addHost (plain_host_name j) None ∅ self in
  addLink h s1 self.

Definition build (k n vlanBase : Z) (self : t) : t :=
  let '(s1, self) := addSwitch "s1" self in
  let self := foldl (add_vlan_group s1 n vlanBase) self (range k) in
  foldl (add_plain_host s1) self (range n).

(** *** The topology as the algorithm is described

    For each group index [i] in [range k], with [vlan = vlanBase + i],
    and each member index [j] in [range n], a host [h{j+1}-{vlan}]
    tagged with [vlan]; after all the groups, [n] hosts [h{j+1}]
    without a tag; every host linked to the switch. *)

Definition vlan_entry (vlan j : Z) : string * NodeSpec :=
  ("h" +:+ pretty (j + 1) +:+ "-" +:+ pretty vlan,
   mkNode false (Some "VLANHost") {[ "vlan" := VInt vlan ]}).

Definition plain_entry (j : Z) : string * NodeSpec :=
  ("h" +:+ pretty (j + 1), mkNode false None ∅).

Definition star_hosts (k n vlanBase : Z) : list (string * NodeSpec) :=
  (i ← range k; vlan_entry (vlanBase + i) <$> range n)
  ++ (plain_entry <$> range n).

Definition star_links (k n vlanBase : Z) : list (string * string) :=
  (λ e, (e.1, "s1")) <$> star_hosts k n vlanBase.

(** One host descriptor added and linked to [s1], as both loop bodies
    do. *)
Definition add_host_link (s1 : string) (self : t)
    (e : string * NodeSpec) : t :=
  let '(h, self) := addHost e.1 (cls e.2) (opts e.2) self in
  addLink h s1 self.

(** No character of the string is a dash. *)
Fixpoint no_dash (s : string) : Prop :=
  match s with
  | EmptyString => True
  | String a s' => a ≠ "-"%char ∧ no_dash s'
  end.

(** [VLANStarTopo( k, n, vlanBase )]: [build] runs on a fresh topology. *)
Definition make (k n vlanBase : Z) : t := build k n vlanBase Topo.empty.

End VLANStarTopo.

(** ** A concrete host to run the model on *)

Module Sample.
Import HostOps.

(** A generic configuration step in the style of the framework's: it
    brings the loopback interface up and returns an empty result. *)
Definition node_config (params : gmap string PyVal) : M (list string) :=
  cmd (λ _ _, "") "ifconfig lo up";; mret [].

(** A shell whose commands print nothing. *)
Definition quiet : Host → string → string := λ _ _, "".

(** A host with the single interface [h1-eth0]. *)
Definition h1 : Host :=
  {| default_intf := Some 1%positive;
     nameToIntf := {[ "h1-eth0" := 1%positive ]};
     heap := {[ 1%positive := {| name := "h1-eth0"; link := Some 0%N |} ]};
     trace := [] |}.

(** [vlan=100, ip='10.0.0.1/8'] *)
Definition params : gmap string PyVal :=
  {[ "vlan" := VInt 100; "ip" := VStr "10.0.0.1/8" ]}.

(** The same without the address, and without the VLAN id. *)
Definition params_no_ip : gmap string PyVal := {[ "vlan" := VInt 100 ]}.
Definition params_no_vlan : gmap string PyVal := {[ "ip" := VStr "10.0.0.1/8" ]}.

Definition run (params : gmap string PyVal) (h : Host) : Res (list string) * Host :=
  VLANHost.config node_config quiet params h.

(** [h1] as the generic step leaves it when called with [rest]. *)
Definition after_generic (rest : gmap string PyVal) (h : Host) : Host :=
  {| default_intf := default_intf h;
     nameToIntf := nameToIntf h;
     heap := heap h;
     trace := trace h ++ [SuperConfig rest; Cmd "ifconfig lo up"] |}.

Definition rest : gmap string PyVal := {[ "ip" := VStr "10.0.0.1/8" ]}.

(** [h1] after one call of [config] with [params], and after two. *)
Definition once : Host := (run params h1).2.
Definition twice : Host := (run params once).2.

(** What the second call added to the trace. *)
Definition second_call : list Event := drop (length (trace once)) (trace twice).

End Sample.

(** ** Repeated configuration, and further hosts to run the model on *)

Module Runs.
Import HostOps.

(** [config] called [n] times in a row on the same host with the same
    parameters; the first call that raises ends the run. *)
Fixpoint config_times {R : Type} (super_config : gmap string PyVal → M R)
    (shell : Host → string → string) (params : gmap string PyVal)
    (n : nat) : M unit :=
  match n with
  | O => mret ()
  | S n' =>
      VLANHost.config super_config shell params;;
      config_times super_config shell params n'
  end.

(** The name [f'{intf}.{vlan}'] builds when it is applied [n] times,
    starting from [I]: [I.V], [I.V.V], ... *)
Fixpoint stacked (V : string) (n : nat) (I : string) : string :=
  match n with
  | O => I
  | S n' => stacked V n' (I +:+ "." +:+ V)
  end.

(** A generic configuration step that fails. *)
Definition failing_config (params : gmap string PyVal) : M (list string) :=
  raise (OtherError "generic configuration failed").

(** A generic configuration step that refuses a [vlan] keyword and is
    [Sample.node_config] otherwise. *)
Definition strict_config (params : gmap string PyVal) : M (list string) :=
  match params !! "vlan" with
  | Some _ => raise (OtherError "unexpected keyword argument 'vlan'")
  | None => Sample.node_config params
  end.

(** A host without any interface. *)
Definition bare : Host :=
  {| default_intf := None; nameToIntf := ∅; heap := ∅; trace := [] |}.

(** A host with two interfaces, [h1-eth0] being the default one. *)
Definition dual : Host :=
  {| default_intf := Some 1%positive;
     nameToIntf := {[ "h1-eth0" := 1%positive; "h1-eth1" := 2%positive ]};
     heap := {[ 1%positive := {| name := "h1-eth0"; link := Some 0%N |};
                2%positive := {| name := "h1-eth1"; link := Some 1%N |} ]};
     trace := [] |}.

(** No character of the string is [c]. *)
Fixpoint lacks (c : ascii) (s : string) : Prop :=
  match s with
  | EmptyString => True
  | String a s' => a ≠ c ∧ lacks c s'
  end.

End Runs.

(** * Properties *)

(** ** Running computations *)

Section Monad.
Context {A B : Type}.

Lemma bind_ok (m : M A) (f : A → M B) h a h' :
  m h = (Ok a, h') → (m ≫= f) h = f a h'.
Proof. intros E. unfold mbind, M_bind. by rewrite E. Qed.

Lemma bind_raise (m : M A) (f : A → M B) h e h' :
  m h = (Raise e, h') → (m ≫= f) h = (Raise e, h').
Proof. intros E. unfold mbind, M_bind. by rewrite E. Qed.

Lemma bind_inv_ok (m : M A) (f : A → M B) h b h2 :
  (m ≫= f) h = (Ok b, h2) →
  ∃ a h1, m h = (Ok a, h1) ∧ f a h1 = (Ok b, h2).
Proof.
  unfold mbind, M_bind. destruct (m h) as [[a|e] h1]; [eauto | done].
Qed.

Lemma bind_ext (m : M A) (f g : A → M B) h :
  (∀ a h', f a h' = g a h') → (m ≫= f) h = (m ≫= g) h.
Proof.
  intros E. unfold mbind, M_bind. destruct (m h) as [[a|e] h']; [apply E | done].
Qed.

End Monad.

(** ** Strings *)

Lemma string_app_nil_r (s : string) : s +:+ "" = s.
Proof.
  induction s as [|a s IH]; [done|].
  change (String a (s +:+ "") = String a s). by rewrite IH.
Qed.

Lemma string_length_app (s t : string) :
  String.length (s +:+ t) = (String.length s + String.length t)%nat.
Proof.
  induction s as [|a s IH]; [done|].
  change (S (String.length (s +:+ t))
          = S (String.length s + String.length t)).
  by rewrite IH.
Qed.

Lemma string_app_ne_self (s t : string) : t ≠ "" → s ≠ s +:+ t.
Proof.
  intros Ht E. apply Ht. rewrite <- (string_app_nil_r s) in E at 1.
  by apply (inj (String.app s)) in E.
Qed.

Tactic Notation "mstep" "by" tactic3(tac) :=
  erewrite bind_ok by tac; cbv beta.

(** ** The retagging procedure *)

Module VLANHostProps.
Import HostOps VLANHost.

Lemma str_intf_some h i o :
  heap h !! i = Some o → str_intf (Some i) h = (Ok (name o), h).
Proof. intros E. unfold str_intf. by rewrite E. Qed.

Lemma setattr_name_some h i o new :
  heap h !! i = Some o →
  setattr_name i new h
  = (Ok (), {| default_intf := default_intf h;
               nameToIntf := nameToIntf h;
               heap := <[ i := {| name := new; link := link o |} ]> (heap h);
               trace := trace h |}).
Proof. intros E. unfold setattr_name. by rewrite E. Qed.

Lemma pop_vlan_present (params : gmap string PyVal) V :
  params !! "vlan" = Some V →
  dict_pop "vlan" VNone params = (V, delete "vlan" params).
Proof. intros E. unfold dict_pop. by rewrite E. Qed.

Lemma lookup_ip_after_pop (params : gmap string PyVal) :
  delete "vlan" params !! "ip" = params !! "ip".
Proof. by apply lookup_delete_ne. Qed.

Section Facts.
Context {R : Type}.
Variable super_config : gmap string PyVal → M R.
Variable shell : Host → string → string.

Lemma config_run params h V P r h1 i o :
  params !! "vlan" = Some V → V ≠ VNone →
  params !! "ip" = Some P →
  call_super super_config (delete "vlan" params) h = (Ok r, h1) →
  default_intf h1 = Some i →
  heap h1 !! i = Some o →
  config super_config shell params h = (Ok r, retagged h1 i o V P).
Proof.
  intros HV HVn HP Hsup Hd Ho.
  unfold config. rewrite (pop_vlan_present _ _ HV).
  rewrite (bool_decide_eq_true_2 _ HVn).
  mstep by reflexivity. mstep by eassumption. mstep by reflexivity.
  rewrite Hd. unfold dict_getitem. rewrite lookup_ip_after_pop, HP.
  mstep by reflexivity.
  mstep by (by apply str_intf_some).
  mstep by (by apply str_intf_some).
  mstep by reflexivity.
  mstep by (by apply str_intf_some).
  do 4 (mstep by reflexivity).
  mstep by (apply setattr_name_some; exact Ho).
  mstep by reflexivity.
  unfold mret, M_ret, retagged, retag_cmds. cbn [trace log default_intf nameToIntf heap].
  by rewrite <- !app_assoc.
Qed.

(** When the host has no interface at all the commands are issued
    for the formatted [None] and the renaming fails afterwards. *)
Lemma config_run_no_intf params h V P r h1 :
  params !! "vlan" = Some V → V ≠ VNone →
  params !! "ip" = Some P →
  call_super super_config (delete "vlan" params) h = (Ok r, h1) →
  default_intf h1 = None →
  config super_config shell params h
  = (Raise (AttributeError "'NoneType' object has no attribute 'name'"),
     {| default_intf := default_intf h1;
        nameToIntf := nameToIntf h1;
        heap := heap h1;
        trace := trace h1 ++ retag_cmds "None" V P |}).
Proof.
  intros HV HVn HP Hsup Hd.
  unfold config. rewrite (pop_vlan_present _ _ HV).
  rewrite (bool_decide_eq_true_2 _ HVn).
  mstep by reflexivity. mstep by eassumption. mstep by reflexivity.
  rewrite Hd. unfold dict_getitem. rewrite lookup_ip_after_pop, HP.
  do 8 (mstep by reflexivity).
  erewrite bind_raise by reflexivity.
  unfold retag_cmds, log. cbn [trace default_intf nameToIntf heap].
  rewrite Hd. by rewrite <- !app_assoc.
Qed.

Lemma cmd_discard {B} (shell' : Host → string → string) c (k : M B) h :
  (cmd shell c ≫= λ _, k) h = (cmd shell' c ≫= λ _, k) h.
Proof. reflexivity. Qed.

(** What the commands print has no influence on the procedure. *)
Lemma config_shell_irrelevant (shell' : Host → string → string) params h :
  config super_config shell params h = config super_config shell' params h.
Proof.
  unfold config. destruct (dict_pop "vlan" VNone params) as [vlan params'].
  cbv zeta.
  do 6 (apply bind_ext; intros).
  rewrite (cmd_discard shell'). apply bind_ext; intros.
  apply bind_ext; intros.
  rewrite (cmd_discard shell'). apply bind_ext; intros.
  rewrite (cmd_discard shell'). apply bind_ext; intros.
  rewrite (cmd_discard shell'). apply bind_ext; intros.
  reflexivity.
Qed.

(** C1.  For every VLAN id [V] that is not [None] and every address
    [P]: when the generic step returns and leaves a host whose
    default interface is named [I], [config] returns, and afterwards
    the default-interface accessor yields that same interface, now
    named [I.V]; the last command issued is
    [ip link set up dev I.V]; and [nameToIntf] maps [I.V] to the
    interface. *)
Theorem config_retags_default_intf params h V P r h1 i I :
  params !! "vlan" = Some V → V ≠ VNone →
  params !! "ip" = Some P →
  call_super super_config (delete "vlan" params) h = (Ok r, h1) →
  default_intf h1 = Some i →
  intf_name h1 i = Some I →
  ∃ h2, config super_config shell params h = (Ok r, h2) ∧
    defaultIntf h2 = (Ok (Some i), h2) ∧
    intf_name h2 i = Some (I +:+ "." +:+ py_str V) ∧
    last (trace h2)
      = Some (Cmd ("ip link set up dev " +:+ I +:+ "." +:+ py_str V)) ∧
    nameToIntf h2 !! (I +:+ "." +:+ py_str V) = Some i.
Proof.
  intros HV HVn HP Hsup Hd HI. unfold intf_name in HI.
  destruct (heap h1 !! i) as [o|] eqn:Ho; [|done].
  injection HI as <-.
  eexists. split; [by eapply config_run|].
  unfold defaultIntf, intf_name, retagged.
  cbn [default_intf heap nameToIntf trace].
  rewrite Hd, !lookup_insert_eq. repeat split.
  unfold retag_cmds.
  by rewrite last_app_cons.
Qed.

(** C2.  With a VLAN id [V] and an address [P] among the parameters,
    once the generic step has returned, [config] adds to the trace
    exactly the four commands [ip address del P dev I],
    [ip link add link I name I.V type vlan id V],
    [ip address add P dev I.V] and [ip link set up dev I.V], in this
    order, [I] being the formatted default interface; and whatever
    the commands print (the shell is arbitrary), [config] behaves
    the same: no result is inspected. *)
Theorem config_issues_four_commands params h V P r h1 I :
  params !! "vlan" = Some V → V ≠ VNone →
  params !! "ip" = Some P →
  call_super super_config (delete "vlan" params) h = (Ok r, h1) →
  str_intf (default_intf h1) h1 = (Ok I, h1) →
  trace (config super_config shell params h).2
  = trace h1 ++
    [ Cmd ("ip address del " +:+ py_str P +:+ " dev " +:+ I);
      Cmd ("ip link add link " +:+ I +:+ " name "
           +:+ (I +:+ "." +:+ py_str V)
           +:+ " type vlan id " +:+ py_str V);
      Cmd ("ip address add " +:+ py_str P +:+ " dev "
           +:+ I +:+ "." +:+ py_str V);
      Cmd ("ip link set up dev " +:+ I +:+ "." +:+ py_str V) ]
  ∧ ∀ shell' : Host → string → string,
      config super_config shell' params h
      = config super_config shell params h.
Proof.
  intros HV HVn HP Hsup HI. split.
  - destruct (default_intf h1) as [i|] eqn:Hd.
    + unfold str_intf in HI. destruct (heap h1 !! i) as [o|] eqn:Ho; [|done].
      injection HI as <-.
      by erewrite config_run.
    + injection HI as <-.
      by erewrite config_run_no_intf.
  - intros shell'. apply config_shell_irrelevant.
Qed.

(** C3.  Without a VLAN id among the parameters (absent, or [None])
    [config] raises the assertion error and leaves the host exactly
    as it was, whatever the generic step would do: no command has
    been issued, the generic step has not been called, and no
    interface name or [nameToIntf] entry has changed. *)
Theorem config_without_vlan params h :
  default VNone (params !! "vlan") = VNone →
  config super_config shell params h
  = (Raise (AssertionError "VLANHost without vlan in instantiation"), h).
Proof.
  intros HV. unfold config, dict_pop.
  destruct (params !! "vlan") as [v|]; simpl in HV; subst; reflexivity.
Qed.

(** C8.  Whenever [config] returns, the value it returns is the one
    the generic step returned for the remaining parameters. *)
Theorem config_returns_super_result params h r h2 :
  config super_config shell params h = (Ok r, h2) →
  ∃ h1, call_super super_config (delete "vlan" params) h = (Ok r, h1).
Proof.
  unfold config, dict_pop.
  destruct (params !! "vlan") as [v|].
  - intros H.
    apply bind_inv_ok in H as (u & h0 & Ha & H).
    assert (h0 = h) as E.
    { unfold py_assert, raise, mret, M_ret in Ha.
      destruct (bool_decide _); by simplify_eq. }
    clear Ha. subst h0.
    apply bind_inv_ok in H as (r' & h1 & Hsup & H).
    exists h1. rewrite Hsup.
    do 12 (apply bind_inv_ok in H as (? & ? & _ & H)).
    by injection H as -> _.
  - rewrite bool_decide_eq_false_2 by (by intros []).
    intros H. by apply bind_inv_ok in H as (? & ? & ? & _).
Qed.

(** C9.  Retagging removes nothing from [nameToIntf]: the table
    after [config] is the table the generic step left with the one
    entry [I.V] added, so when the old name [I] was a key for the
    default interface it still is; [I] and [I.V] are different keys
    and both map to the same interface, which now bears the name
    [I.V]. *)
Theorem config_keeps_old_name params h V P r h1 i I :
  params !! "vlan" = Some V → V ≠ VNone →
  params !! "ip" = Some P →
  call_super super_config (delete "vlan" params) h = (Ok r, h1) →
  default_intf h1 = Some i →
  intf_name h1 i = Some I →
  nameToIntf h1 !! I = Some i →
  ∃ h2, config super_config shell params h = (Ok r, h2) ∧
    nameToIntf h2 = <[ I +:+ "." +:+ py_str V := i ]> (nameToIntf h1) ∧
    I ≠ I +:+ "." +:+ py_str V ∧
    nameToIntf h2 !! I = Some i ∧
    nameToIntf h2 !! (I +:+ "." +:+ py_str V) = Some i ∧
    intf_name h2 i = Some (I +:+ "." +:+ py_str V).
Proof.
  intros HV HVn HP Hsup Hd HI Hold. unfold intf_name in HI.
  destruct (heap h1 !! i) as [o|] eqn:Ho; [|done].
  injection HI as <-.
  assert (name o ≠ name o +:+ "." +:+ py_str V) as Hne
    by by apply string_app_ne_self.
  eexists. split; [by eapply config_run|].
  unfold intf_name, retagged. cbn [nameToIntf heap].
  rewrite lookup_insert_ne by done.
  by rewrite !lookup_insert_eq.
Qed.

(** C10.  With a VLAN id but no [ip] entry among the parameters,
    once the generic step has returned [config] raises the key error
    for [ip] and leaves the host exactly as the generic step left
    it: none of the four commands has been issued, no interface has
    been renamed and [nameToIntf] is as it was. *)
Theorem config_without_ip params h V r h1 :
  params !! "vlan" = Some V → V ≠ VNone →
  params !! "ip" = None →
  call_super super_config (delete "vlan" params) h = (Ok r, h1) →
  config super_config shell params h = (Raise (KeyError "ip"), h1).
Proof.
  intros HV HVn HP Hsup.
  unfold config. rewrite (pop_vlan_present _ _ HV).
  rewrite (bool_decide_eq_true_2 _ HVn).
  mstep by reflexivity. mstep by eassumption. mstep by reflexivity.
  unfold dict_getitem. rewrite lookup_ip_after_pop, HP.
  by erewrite bind_raise.
Qed.

(** C5, as the code has it.  [config] is not idempotent, but the
    second call does not repeat the first one's commands: the first
    call renamed the default interface to [I.V], so a second call
    with the same VLAN id (the generic step keeping the default
    interface and its name) works on [I.V]: it issues
    [ip address del P dev I.V],
    [ip link add link I.V name I.V.V type vlan id V],
    [ip address add P dev I.V.V] and [ip link set up dev I.V.V],
    and leaves the interface named [I.V.V] and registered under that
    name; its create command differs from the first call's. *)
Theorem config_twice_stacks params h V P r1 h1 i I h2 r2 h3 :
  params !! "vlan" = Some V → V ≠ VNone →
  params !! "ip" = Some P →
  call_super super_config (delete "vlan" params) h = (Ok r1, h1) →
  default_intf h1 = Some i →
  intf_name h1 i = Some I →
  config super_config shell params h = (Ok r1, h2) →
  call_super super_config (delete "vlan" params) h2 = (Ok r2, h3) →
  default_intf h3 = Some i →
  intf_name h3 i = intf_name h2 i →
  ∃ h4, config super_config shell params h2 = (Ok r2, h4) ∧
    trace h4 = trace h3 ++
      [ Cmd ("ip address del " +:+ py_str P +:+ " dev "
             +:+ (I +:+ "." +:+ py_str V));
        Cmd ("ip link add link " +:+ (I +:+ "." +:+ py_str V) +:+ " name "
             +:+ ((I +:+ "." +:+ py_str V) +:+ "." +:+ py_str V)
             +:+ " type vlan id " +:+ py_str V);
        Cmd ("ip address add " +:+ py_str P +:+ " dev "
             +:+ (I +:+ "." +:+ py_str V) +:+ "." +:+ py_str V);
        Cmd ("ip link set up dev "
             +:+ (I +:+ "." +:+ py_str V) +:+ "." +:+ py_str V) ] ∧
    intf_name h4 i = Some ((I +:+ "." +:+ py_str V) +:+ "." +:+ py_str V) ∧
    nameToIntf h4 !! ((I +:+ "." +:+ py_str V) +:+ "." +:+ py_str V)
      = Some i ∧
    "ip link add link " +:+ (I +:+ "." +:+ py_str V) +:+ " name "
      +:+ ((I +:+ "." +:+ py_str V) +:+ "." +:+ py_str V)
      +:+ " type vlan id " +:+ py_str V
    ≠ "ip link add link " +:+ I +:+ " name "
      +:+ (I +:+ "." +:+ py_str V)
      +:+ " type vlan id " +:+ py_str V.
Proof.
  intros HV HVn HP Hsup Hd HI Hrun Hsup2 Hd3 Hkeep.
  unfold intf_name in HI.
  destruct (heap h1 !! i) as [o|] eqn:Ho; [|done].
  injection HI as <-.
  rewrite (config_run _ _ _ _ _ _ _ _ HV HVn HP Hsup Hd Ho) in Hrun.
  injection Hrun as <-.
  unfold intf_name, retagged in Hkeep. cbn [heap] in Hkeep.
  rewrite lookup_insert_eq in Hkeep. cbn [fmap option_fmap option_map name] in Hkeep.
  destruct (heap h3 !! i) as [o3|] eqn:Ho3; [|done].
  injection Hkeep as Hname.
  eexists. split; [by eapply config_run|].
  unfold intf_name, retagged, retag_cmds. cbn [trace heap nameToIntf].
  rewrite Hname, !lookup_insert_eq. repeat split.
  intros E. apply (inj (String.app _)) in E.
  apply (f_equal String.length) in E.
  rewrite !string_length_app in E. cbn in E. lia.
Qed.

End Facts.


(** *** The theorems on the sample host *)

Lemma config_retags_default_intf_witness :
  ∃ h2, Sample.run Sample.params Sample.h1 = (Ok [], h2) ∧
    defaultIntf h2 = (Ok (Some 1%positive), h2) ∧
    intf_name h2 1%positive = Some "h1-eth0.100" ∧
    last (trace h2) = Some (Cmd "ip link set up dev h1-eth0.100") ∧
    nameToIntf h2 !! "h1-eth0.100" = Some 1%positive.
Proof.
  apply (config_retags_default_intf Sample.node_config Sample.quiet
           Sample.params Sample.h1 (VInt 100) (VStr "10.0.0.1/8") []
           (Sample.after_generic Sample.rest Sample.h1) 1%positive "h1-eth0");
    [reflexivity | discriminate | reflexivity | reflexivity
    | reflexivity | reflexivity].
Defined.

Lemma config_issues_four_commands_witness :
  trace (Sample.run Sample.params Sample.h1).2
  = [ SuperConfig Sample.rest; Cmd "ifconfig lo up";
      Cmd "ip address del 10.0.0.1/8 dev h1-eth0";
      Cmd "ip link add link h1-eth0 name h1-eth0.100 type vlan id 100";
      Cmd "ip address add 10.0.0.1/8 dev h1-eth0.100";
      Cmd "ip link set up dev h1-eth0.100" ]
  ∧ ∀ shell' : Host → string → string,
      config Sample.node_config shell' Sample.params Sample.h1
      = Sample.run Sample.params Sample.h1.
Proof.
  apply (config_issues_four_commands Sample.node_config Sample.quiet
           Sample.params Sample.h1 (VInt 100) (VStr "10.0.0.1/8") []
           (Sample.after_generic Sample.rest Sample.h1) "h1-eth0");
    [reflexivity | discriminate | reflexivity | reflexivity | reflexivity].
Defined.

Lemma config_without_vlan_witness :
  Sample.run Sample.params_no_vlan Sample.h1
  = (Raise (AssertionError "VLANHost without vlan in instantiation"),
     Sample.h1).
Proof.
  apply (config_without_vlan Sample.node_config Sample.quiet
           Sample.params_no_vlan Sample.h1).
  reflexivity.
Defined.

Lemma config_returns_super_result_witness :
  ∃ h1, call_super Sample.node_config (delete "vlan" Sample.params) Sample.h1
        = (Ok [], h1).
Proof.
  apply (config_returns_super_result Sample.node_config Sample.quiet
           Sample.params Sample.h1 []
           (retagged (Sample.after_generic Sample.rest Sample.h1) 1%positive
              {| name := "h1-eth0"; link := Some 0%N |}
              (VInt 100) (VStr "10.0.0.1/8"))).
  vm_compute. reflexivity.
Defined.

Lemma config_keeps_old_name_witness :
  ∃ h2, Sample.run Sample.params Sample.h1 = (Ok [], h2) ∧
    nameToIntf h2 = <[ "h1-eth0.100" := 1%positive ]> (nameToIntf Sample.h1) ∧
    "h1-eth0" ≠ "h1-eth0.100" ∧
    nameToIntf h2 !! "h1-eth0" = Some 1%positive ∧
    nameToIntf h2 !! "h1-eth0.100" = Some 1%positive ∧
    intf_name h2 1%positive = Some "h1-eth0.100".
Proof.
  apply (config_keeps_old_name Sample.node_config Sample.quiet
           Sample.params Sample.h1 (VInt 100) (VStr "10.0.0.1/8") []
           (Sample.after_generic Sample.rest Sample.h1) 1%positive "h1-eth0");
    [reflexivity | discriminate | reflexivity | reflexivity
    | reflexivity | reflexivity | reflexivity].
Defined.

Lemma config_without_ip_witness :
  Sample.run Sample.params_no_ip Sample.h1
  = (Raise (KeyError "ip"), Sample.after_generic ∅ Sample.h1).
Proof.
  apply (config_without_ip Sample.node_config Sample.quiet
           Sample.params_no_ip Sample.h1 (VInt 100) []);
    [reflexivity | discriminate | reflexivity | reflexivity].
Defined.

Lemma config_twice_stacks_witness :
  ∃ h4, Sample.run Sample.params Sample.once = (Ok [], h4) ∧
    trace h4 = trace (Sample.after_generic Sample.rest Sample.once) ++
      [ Cmd "ip address del 10.0.0.1/8 dev h1-eth0.100";
        Cmd "ip link add link h1-eth0.100 name h1-eth0.100.100 type vlan id 100";
        Cmd "ip address add 10.0.0.1/8 dev h1-eth0.100.100";
        Cmd "ip link set up dev h1-eth0.100.100" ] ∧
    intf_name h4 1%positive = Some "h1-eth0.100.100" ∧
    nameToIntf h4 !! "h1-eth0.100.100" = Some 1%positive ∧
    "ip link add link h1-eth0.100 name h1-eth0.100.100 type vlan id 100"
    ≠ "ip link add link h1-eth0 name h1-eth0.100 type vlan id 100".
Proof.
  apply (config_twice_stacks Sample.node_config Sample.quiet
           Sample.params Sample.h1 (VInt 100) (VStr "10.0.0.1/8") []
           (Sample.after_generic Sample.rest Sample.h1) 1%positive "h1-eth0"
           Sample.once [] (Sample.after_generic Sample.rest Sample.once));
    [reflexivity | discriminate | reflexivity | reflexivity | reflexivity
    | reflexivity | reflexivity | reflexivity | reflexivity | reflexivity].
Defined.

(** Against C5 as stated: on the sample host, the first call issues
    [ip link add link h1-eth0 name h1-eth0.100 type vlan id 100]; the
    second call with the same VLAN id does not issue that command
    again, its create command names [h1-eth0.100.100]. *)
Lemma config_twice_no_duplicate_create :
  "ip link add link h1-eth0 name h1-eth0.100 type vlan id 100"
    ∈ cmds_of (trace Sample.once) ∧
  cmds_of Sample.second_call
  = [ "ifconfig lo up";
      "ip address del 10.0.0.1/8 dev h1-eth0.100";
      "ip link add link h1-eth0.100 name h1-eth0.100.100 type vlan id 100";
      "ip address add 10.0.0.1/8 dev h1-eth0.100.100";
      "ip link set up dev h1-eth0.100.100" ] ∧
  "ip link add link h1-eth0 name h1-eth0.100 type vlan id 100"
    ∉ cmds_of Sample.second_call.
Proof.
  split; [|split].
  - apply (bool_decide_unpack _). vm_compute. exact I.
  - vm_compute. reflexivity.
  - apply (bool_decide_unpack _). vm_compute. exact I.
Qed.

End VLANHostProps.

(** ** The star topology *)

Module VLANStarTopoProps.
Import Topo VLANStarTopo.

(** *** Decimal numerals and host names *)

Lemma no_dash_pretty_N_go (x : N) (s : string) :
  no_dash s → no_dash (pretty_N_go x s).
Proof.
  revert s. induction (N.lt_wf_0 x) as [x _ IH]; intros s Hs.
  destruct (decide (x = 0)%N) as [->|Hx]; [by rewrite pretty_N_go_0|].
  rewrite pretty_N_go_step by lia.
  apply IH; [apply N.div_lt; lia|].
  split; [|done]. unfold pretty_N_char. by repeat case_match.
Qed.

Lemma no_dash_pretty_N (x : N) : no_dash (pretty x).
Proof.
  unfold pretty, pretty_N. case_decide; [by compute|].
  by apply no_dash_pretty_N_go.
Qed.

Lemma no_dash_pretty_Z (z : Z) : 0 ≤ z → no_dash (pretty z).
Proof.
  destruct z as [|p|p]; [by compute| |lia]. intros _.
  apply (no_dash_pretty_N (N.pos p)).
Qed.

(** A dash-free prefix ends at the first dash. *)
Lemma dash_split (d1 d2 r1 r2 : string) :
  no_dash d1 → no_dash d2 →
  d1 +:+ "-" +:+ r1 = d2 +:+ "-" +:+ r2 → d1 = d2 ∧ r1 = r2.
Proof.
  revert d2. induction d1 as [|a d1 IH]; intros [|b d2] H1 H2 E.
  - by injection E.
  - injection E as E _. destruct H2 as [H2 _]. by destruct H2.
  - injection E as E _. destruct H1 as [H1 _]. by destruct H1.
  - injection E as -> E. destruct H1 as [_ H1], H2 as [_ H2].
    destruct (IH d2 H1 H2 E) as [-> ->]. done.
Qed.

Lemma dash_not_in_dash_free (d r s : string) :
  no_dash s → d +:+ "-" +:+ r ≠ s.
Proof.
  revert s. induction d as [|a d IH]; intros [|b s] Hs E; try done.
  - injection E as E _. destruct Hs as [Hs _]. by destruct Hs.
  - injection E as _ E. destruct Hs as [_ Hs]. by eapply IH.
Qed.

Lemma vlan_host_name_inj j j' v v' :
  0 ≤ j → 0 ≤ j' →
  vlan_host_name j v = vlan_host_name j' v' → j = j' ∧ v = v'.
Proof.
  intros Hj Hj' E. unfold vlan_host_name in E.
  apply (inj (String.app "h")) in E.
  apply dash_split in E as [E1 E2]; [|apply no_dash_pretty_Z; lia..].
  apply (inj pretty) in E1. apply (inj pretty) in E2. split; [lia|done].
Qed.

Lemma plain_host_name_inj j j' :
  plain_host_name j = plain_host_name j' → j = j'.
Proof.
  unfold plain_host_name. intros E.
  apply (inj (String.app "h")), (inj pretty) in E. lia.
Qed.

Lemma vlan_name_ne_plain_name j v j' :
  0 ≤ j' → vlan_host_name j v ≠ plain_host_name j'.
Proof.
  intros Hj' E. unfold vlan_host_name, plain_host_name in E.
  apply (inj (String.app "h")) in E.
  by apply dash_not_in_dash_free in E; [|apply no_dash_pretty_Z; lia].
Qed.

(** *** Adding nodes *)

Lemma add_node_fresh name spec (ns : list (string * NodeSpec)) :
  name ∉ ns.*1 → add_node name spec ns = ns ++ [(name, spec)].
Proof.
  induction ns as [|[name' spec'] ns IH]; intros Hfresh; [done|].
  cbn in Hfresh. apply not_elem_of_cons in Hfresh as [Hne Hfresh].
  cbn. rewrite decide_False by done. by rewrite IH.
Qed.

(** Host descriptors with pairwise different names, none of them in
    the table yet, are appended in order, each with its link. *)
Lemma add_host_links_fresh s1 (es : list (string * NodeSpec)) (self : t) :
  Forall (λ e, isSwitch e.2 = false) es →
  NoDup ((nodes self).*1 ++ es.*1) →
  foldl (add_host_link s1) self es
  = {| nodes := nodes self ++ es;
       links := links self ++ ((λ e, (e.1, s1)) <$> es) |}.
Proof.
  revert self. induction es as [|[name [sw c o]] es IH]; intros self Hsw Hnd.
  - cbn. rewrite !app_nil_r. by destruct self.
  - apply Forall_cons in Hsw as [Hsw1 Hsw]. cbn in Hsw1. subst sw.
    cbn [foldl]. rewrite IH; [|done|].
    + unfold add_host_link, addHost, addLink. cbn.
      rewrite add_node_fresh.
      * by rewrite <- !app_assoc.
      * apply NoDup_app in Hnd as (_ & Hnd & _).
        intros Hin. apply (Hnd _ Hin). cbn. left.
    + unfold add_host_link, addHost, addLink. cbn.
      rewrite add_node_fresh.
      * rewrite fmap_app, <- app_assoc. done.
      * apply NoDup_app in Hnd as (_ & Hnd & _).
        intros Hin. apply (Hnd _ Hin). cbn. left.
Qed.

Lemma foldl_bind {A B C} (f : A → B → A) (g : C → list B) (a : A) (l : list C) :
  foldl (λ a i, foldl f a (g i)) a l = foldl f a (l ≫= g).
Proof.
  revert a. induction l as [|i l IH]; intros a; [done|].
  rewrite bind_cons, foldl_app. apply IH.
Qed.

Lemma foldl_pointwise {A B} (f g : A → B → A) (a : A) (l : list B) :
  (∀ a x, f a x = g a x) → foldl f a l = foldl g a l.
Proof.
  intros E. revert a. induction l as [|x l IH]; intros a; [done|].
  cbn. by rewrite E, IH.
Qed.

(** The loops of [build] add the descriptors of [star_hosts], one
    after the other. *)
Lemma build_as_fold k n vlanBase self :
  build k n vlanBase self
  = foldl (add_host_link "s1") (addSwitch "s1" self).2
      (star_hosts k n vlanBase).
Proof.
  unfold build, star_hosts. cbn [addSwitch snd].
  rewrite foldl_app, <- foldl_bind, foldl_fmap.
  rewrite (foldl_pointwise (add_vlan_group "s1" n vlanBase)
             (λ a i, foldl (add_host_link "s1") a
                       (vlan_entry (vlanBase + i) <$> range n))).
  - reflexivity.
  - intros a i. unfold add_vlan_group. by rewrite foldl_fmap.
Qed.

(** *** The descriptors of [star_hosts] *)

Lemma elem_of_star_hosts e k n vlanBase :
  e ∈ star_hosts k n vlanBase ↔
    (∃ i j, 0 ≤ i < k ∧ 0 ≤ j < n ∧ e = vlan_entry (vlanBase + i) j)
    ∨ (∃ j, 0 ≤ j < n ∧ e = plain_entry j).
Proof.
  unfold star_hosts, range. split.
  - intros [H|H]%elem_of_app.
    + apply list_elem_of_bind in H as (i & Hj & Hi).
      apply list_elem_of_fmap in Hj as (j & -> & Hj).
      apply elem_of_seqZ in Hi, Hj.
      left. exists i, j. repeat split; lia.
    + apply list_elem_of_fmap in H as (j & -> & Hj).
      apply elem_of_seqZ in Hj.
      right. exists j. repeat split; lia.
  - intros [(i & j & Hi & Hj & ->) | (j & Hj & ->)]; apply elem_of_app.
    + left. apply list_elem_of_bind. exists i. split.
      * apply list_elem_of_fmap_2, elem_of_seqZ. lia.
      * apply elem_of_seqZ. lia.
    + right. apply list_elem_of_fmap_2, elem_of_seqZ. lia.
Qed.

Lemma vlan_entry_name vlan j : (vlan_entry vlan j).1 = vlan_host_name j vlan.
Proof. reflexivity. Qed.

Lemma plain_entry_name j : (plain_entry j).1 = plain_host_name j.
Proof. reflexivity. Qed.

Lemma vlan_of_vlan_entry vlan j : vlan_of (vlan_entry vlan j) = Some (VInt vlan).
Proof. unfold vlan_of, vlan_entry. cbn [snd opts]. apply lookup_singleton_eq. Qed.

Lemma vlan_of_plain_entry j : vlan_of (plain_entry j) = None.
Proof. unfold vlan_of, plain_entry. cbn [snd opts]. apply lookup_empty. Qed.

Lemma star_hosts_not_switch k n vlanBase :
  Forall (λ e, isSwitch e.2 = false) (star_hosts k n vlanBase).
Proof.
  apply Forall_forall. intros e He.
  apply elem_of_star_hosts in He as [(i & j & _ & _ & ->) | (j & _ & ->)]; done.
Qed.

Lemma star_hosts_name_inj k n vlanBase e1 e2 :
  e1 ∈ star_hosts k n vlanBase → e2 ∈ star_hosts k n vlanBase →
  e1.1 = e2.1 → e1 = e2.
Proof.
  intros [(i1 & j1 & Hi1 & Hj1 & ->) | (j1 & Hj1 & ->)]%elem_of_star_hosts
         [(i2 & j2 & Hi2 & Hj2 & ->) | (j2 & Hj2 & ->)]%elem_of_star_hosts;
    rewrite ?vlan_entry_name, ?plain_entry_name; intros E.
  - apply vlan_host_name_inj in E as [-> E]; [|lia..]. by rewrite E.
  - apply vlan_name_ne_plain_name in E; [done|lia].
  - symmetry in E. apply vlan_name_ne_plain_name in E; [done|lia].
  - apply plain_host_name_inj in E. by subst.
Qed.

Lemma star_hosts_NoDup k n vlanBase : NoDup (star_hosts k n vlanBase).
Proof.
  unfold star_hosts, range. apply NoDup_app. split_and!.
  - apply NoDup_bind; [| |apply NoDup_seqZ].
    + intros i1 i2 e _ _ (j1 & -> & _)%list_elem_of_fmap
             (j2 & E & _)%list_elem_of_fmap.
      apply (f_equal vlan_of) in E. rewrite !vlan_of_vlan_entry in E.
      injection E. lia.
    + intros i _. apply NoDup_fmap_2_strong; [|apply NoDup_seqZ].
      intros j1 j2 [Hj1 _]%elem_of_seqZ [Hj2 _]%elem_of_seqZ E.
      apply (f_equal fst) in E. rewrite !vlan_entry_name in E.
      apply vlan_host_name_inj in E as [-> _]; [done|lia..].
  - intros e (i & (j & -> & _)%list_elem_of_fmap & _)%list_elem_of_bind
           (j' & E & _)%list_elem_of_fmap.
    apply (f_equal vlan_of) in E.
    by rewrite vlan_of_vlan_entry, vlan_of_plain_entry in E.
  - apply NoDup_fmap_2_strong; [|apply NoDup_seqZ].
    intros j1 j2 _ _ E. apply (f_equal fst) in E.
    by apply plain_host_name_inj in E.
Qed.

Lemma star_hosts_names_NoDup k n vlanBase :
  NoDup ("s1" :: (star_hosts k n vlanBase).*1).
Proof.
  constructor.
  - intros (e & E & He)%list_elem_of_fmap.
    apply elem_of_star_hosts in He as [(i & j & _ & _ & ->) | (j & _ & ->)];
      by injection E.
  - apply NoDup_fmap_2_strong; [|apply star_hosts_NoDup].
    apply star_hosts_name_inj.
Qed.

(** The topology [build] produces is the one described: the switch,
    then the descriptors of [star_hosts] in order, each linked to the
    switch. *)
Lemma make_eq k n vlanBase :
  make k n vlanBase
  = {| nodes := ("s1", mkNode true None ∅) :: star_hosts k n vlanBase;
       links := star_links k n vlanBase |}.
Proof.
  unfold make. rewrite build_as_fold.
  rewrite add_host_links_fresh.
  - reflexivity.
  - apply star_hosts_not_switch.
  - apply star_hosts_names_NoDup.
Qed.

Lemma hosts_make k n vlanBase :
  hosts (make k n vlanBase) = star_hosts k n vlanBase.
Proof.
  rewrite make_eq. unfold hosts. cbn [nodes].
  rewrite filter_cons_False by done.
  induction (star_hosts_not_switch k n vlanBase) as [|e es He _ IH]; [done|].
  by rewrite filter_cons_True, IH.
Qed.

Lemma switches_make k n vlanBase :
  switches (make k n vlanBase) = [("s1", mkNode true None ∅)].
Proof.
  rewrite make_eq. unfold switches. cbn [nodes].
  rewrite filter_cons_True by done. f_equal.
  induction (star_hosts_not_switch k n vlanBase) as [|e es He _ IH]; [done|].
  rewrite filter_cons_False; [done|]. cbn in *. by rewrite He.
Qed.

(** *** Counting *)

Lemma length_bind_const {A B} (f : A → list B) (l : list A) (m : nat) :
  (∀ x, length (f x) = m) → length (l ≫= f) = (length l * m)%nat.
Proof.
  intros Hf. induction l as [|x l IH]; [done|].
  rewrite bind_cons, length_app, Hf, IH. done.
Qed.

Lemma filter_all {A} (P : A → Prop) `{!∀ x, Decision (P x)} (l : list A) :
  Forall P l → filter P l = l.
Proof.
  induction 1 as [|x l Hx _ IH]; [done|].
  by rewrite filter_cons_True, IH.
Qed.

Lemma filter_none {A} (P : A → Prop) `{!∀ x, Decision (P x)} (l : list A) :
  Forall (λ x, ¬ P x) l → filter P l = [].
Proof.
  induction 1 as [|x l Hx _ IH]; [done|].
  by rewrite filter_cons_False, IH.
Qed.

(** Filtering the groups of a list without repetitions by a property
    that holds in group [i0] only leaves that group. *)
Lemma filter_bind_pick {A B} `{!EqDecision A} (P : B → Prop)
    `{!∀ x, Decision (P x)} (g : A → list B) (l : list A) (i0 : A) :
  (∀ i x, x ∈ g i → P x ↔ i = i0) →
  NoDup l → i0 ∈ l → filter P (l ≫= g) = g i0.
Proof.
  intros HP Hnd. induction Hnd as [|i l Hi Hnd IH]; intros Hin.
  - by apply elem_of_nil in Hin.
  - rewrite bind_cons, filter_app.
    destruct (decide (i = i0)) as [->|Hne].
    + rewrite filter_all by (apply Forall_forall; intros x Hx; by apply (HP i0)).
      rewrite filter_none; [by rewrite app_nil_r|].
      apply Forall_forall. intros x (i & Hx & Hil)%list_elem_of_bind HPx.
      apply (HP i x Hx) in HPx. by subst.
    + rewrite filter_none.
      * apply IH. apply elem_of_cons in Hin as [Hin|Hin]; [by subst|done].
      * apply Forall_forall. intros x Hx HPx. by apply (HP i x Hx) in HPx.
Qed.

Lemma length_star_hosts k n vlanBase :
  length (star_hosts k n vlanBase)
  = (Z.to_nat k * Z.to_nat n + Z.to_nat n)%nat.
Proof.
  unfold star_hosts, range. rewrite length_app, length_fmap, length_seqZ.
  rewrite (length_bind_const _ _ (Z.to_nat n)).
  - by rewrite length_seqZ.
  - intros i. by rewrite length_fmap, length_seqZ.
Qed.

Lemma tagged_make k n vlanBase :
  tagged (make k n vlanBase)
  = (i ← range k; vlan_entry (vlanBase + i) <$> range n).
Proof.
  unfold tagged. rewrite hosts_make. unfold star_hosts.
  rewrite filter_app, filter_all, filter_none; [by rewrite app_nil_r|..].
  - apply Forall_forall. intros e (j & -> & _)%list_elem_of_fmap.
    rewrite vlan_of_plain_entry. by intros [? ?].
  - apply Forall_forall.
    intros e (i & (j & -> & _)%list_elem_of_fmap & _)%list_elem_of_bind.
    by rewrite vlan_of_vlan_entry.
Qed.

Lemma tagged_with_make k n vlanBase i :
  0 ≤ i < k →
  tagged_with (VInt (vlanBase + i)) (make k n vlanBase)
  = vlan_entry (vlanBase + i) <$> range n.
Proof.
  intros Hi. unfold tagged_with. rewrite hosts_make. unfold star_hosts.
  rewrite filter_app, (filter_none _ (plain_entry <$> _)), app_nil_r.
  - apply (filter_bind_pick _ (λ i, vlan_entry (vlanBase + i) <$> range n)).
    + intros i' e (j & -> & _)%list_elem_of_fmap.
      rewrite vlan_of_vlan_entry. split; [intros [= E]; lia | by intros ->].
    + apply NoDup_seqZ.
    + apply elem_of_seqZ. lia.
  - apply Forall_forall. intros e (j & -> & _)%list_elem_of_fmap.
    by rewrite vlan_of_plain_entry.
Qed.

Lemma star_hosts_no_groups k n vlanBase :
  k ≤ 0 ∨ n ≤ 0 → star_hosts k n vlanBase = plain_entry <$> range n.
Proof.
  intros Hkn. unfold star_hosts, range.
  destruct (decide (k ≤ 0)) as [Hk|Hk].
  - by rewrite (seqZ_nil 0 k).
  - rewrite (seqZ_nil 0 n) by lia. cbn.
    rewrite app_nil_r. by induction (seqZ 0 k).
Qed.

(** *** The claims about [build] *)

(** C4.  For [k > 0] and [n > 0] and every [vlanBase], the topology
    has exactly [k*n + n] hosts, with pairwise different names, and
    [k*n + n] links; [s1] is its only switch and every link joins a
    host to [s1]; exactly [k*n] hosts carry a VLAN tag; for each group
    index [i] in [0, k) exactly [n] hosts carry the tag
    [vlanBase + i], and every tag is one of these. *)
Theorem star_topology_counts k n vlanBase :
  0 < k → 0 < n →
  Z.of_nat (length (hosts (make k n vlanBase))) = k * n + n ∧
  NoDup (hosts (make k n vlanBase)).*1 ∧
  Z.of_nat (length (links (make k n vlanBase))) = k * n + n ∧
  (switches (make k n vlanBase)).*1 = ["s1"] ∧
  (∀ l, l ∈ links (make k n vlanBase) →
     l.2 = "s1" ∧ l.1 ∈ (hosts (make k n vlanBase)).*1) ∧
  Z.of_nat (length (tagged (make k n vlanBase))) = k * n ∧
  (∀ i, 0 ≤ i < k →
     Z.of_nat (length (tagged_with (VInt (vlanBase + i)) (make k n vlanBase)))
     = n) ∧
  (∀ e, e ∈ tagged (make k n vlanBase) →
     ∃ i, 0 ≤ i < k ∧ vlan_of e = Some (VInt (vlanBase + i))).
Proof.
  intros Hk Hn. split_and!.
  - rewrite hosts_make, length_star_hosts. nia.
  - rewrite hosts_make.
    by apply NoDup_cons_1_2 with "s1", star_hosts_names_NoDup.
  - rewrite make_eq. cbn [links]. unfold star_links.
    rewrite length_fmap, length_star_hosts. nia.
  - by rewrite switches_make.
  - intros l. rewrite hosts_make, make_eq. cbn [links]. unfold star_links.
    intros (e & -> & He)%list_elem_of_fmap. split; [done|].
    cbn [fst]. apply list_elem_of_fmap. by exists e.
  - rewrite tagged_make. unfold range.
    rewrite (length_bind_const _ _ (Z.to_nat n)).
    + rewrite length_seqZ. nia.
    + intros i. by rewrite length_fmap, length_seqZ.
  - intros i Hi. rewrite tagged_with_make by done. unfold range.
    rewrite length_fmap, length_seqZ. lia.
  - intros e. rewrite tagged_make. unfold range.
    intros (i & (j & -> & _)%list_elem_of_fmap & Hi)%list_elem_of_bind.
    apply elem_of_seqZ in Hi. exists i. split; [lia|].
    apply vlan_of_vlan_entry.
Qed.

Lemma star_topology_counts_witness :
  Z.of_nat (length (hosts (make 2 2 100))) = 2 * 2 + 2 ∧
  NoDup (hosts (make 2 2 100)).*1 ∧
  Z.of_nat (length (links (make 2 2 100))) = 2 * 2 + 2 ∧
  (switches (make 2 2 100)).*1 = ["s1"] ∧
  (∀ l, l ∈ links (make 2 2 100) →
     l.2 = "s1" ∧ l.1 ∈ (hosts (make 2 2 100)).*1) ∧
  Z.of_nat (length (tagged (make 2 2 100))) = 2 * 2 ∧
  (∀ i, 0 ≤ i < 2 →
     Z.of_nat (length (tagged_with (VInt (100 + i)) (make 2 2 100))) = 2) ∧
  (∀ e, e ∈ tagged (make 2 2 100) →
     ∃ i, 0 ≤ i < 2 ∧ vlan_of e = Some (VInt (100 + i))).
Proof. apply (star_topology_counts 2 2 100); lia. Defined.

(** C6, as the code has it.  Negative sizes are not rejected.  When
    [k] or [n] is negative the topology holds the switch [s1] and the
    untagged hosts [h1 .. hn] of the second loop, each linked to
    [s1], and nothing else: it has no hosts and no links when
    [n <= 0], and [n] hosts and [n] links when [n > 0] (then [k] is
    the negative one). *)
Theorem build_negative_sizes k n vlanBase :
  k < 0 ∨ n < 0 →
  hosts (make k n vlanBase)
    = (λ j, ("h" +:+ pretty (j + 1), mkNode false None ∅)) <$> range n ∧
  links (make k n vlanBase)
    = (λ j, ("h" +:+ pretty (j + 1), "s1")) <$> range n ∧
  (switches (make k n vlanBase)).*1 = ["s1"] ∧
  (n ≤ 0 → hosts (make k n vlanBase) = [] ∧ links (make k n vlanBase) = []) ∧
  (0 < n → Z.of_nat (length (hosts (make k n vlanBase))) = n ∧
           Z.of_nat (length (links (make k n vlanBase))) = n).
Proof.
  intros Hkn.
  assert (star_hosts k n vlanBase = plain_entry <$> range n) as E
    by (apply star_hosts_no_groups; lia).
  assert (links (make k n vlanBase)
          = (λ j, ("h" +:+ pretty (j + 1), "s1")) <$> range n) as El.
  { rewrite make_eq. cbn [links]. unfold star_links. rewrite E.
    by rewrite <- list_fmap_compose. }
  rewrite El, hosts_make, E, switches_make. split_and!; try done.
  - intros Hn. unfold range. by rewrite (seqZ_nil 0 n).
  - intros Hn. unfold range. rewrite !length_fmap, length_seqZ. lia.
Qed.

Lemma build_negative_sizes_witness :
  hosts (make (-1) 2 100)
    = (λ j, ("h" +:+ pretty (j + 1), mkNode false None ∅)) <$> range 2 ∧
  links (make (-1) 2 100)
    = (λ j, ("h" +:+ pretty (j + 1), "s1")) <$> range 2 ∧
  (switches (make (-1) 2 100)).*1 = ["s1"] ∧
  (2 ≤ 0 → hosts (make (-1) 2 100) = [] ∧ links (make (-1) 2 100) = []) ∧
  (0 < 2 → Z.of_nat (length (hosts (make (-1) 2 100))) = 2 ∧
           Z.of_nat (length (links (make (-1) 2 100))) = 2).
Proof. apply (build_negative_sizes (-1) 2 100). lia. Defined.

(** Against C6 as stated: with [k = -1] and [n = 2] the topology is
    not empty, it has the hosts [h1] and [h2] and their two links. *)
Lemma build_negative_k_not_empty :
  (hosts (make (-1) 2 100)).*1 = ["h1"; "h2"] ∧
  links (make (-1) 2 100) = [("h1", "s1"); ("h2", "s1")] ∧
  ¬ (hosts (make (-1) 2 100) = [] ∧ links (make (-1) 2 100) = []).
Proof.
  split_and!.
  - vm_compute. reflexivity.
  - vm_compute. reflexivity.
  - intros [_ E]. vm_compute in E. discriminate E.
Qed.

(** C7.  [build] creates, for each group index [i] of [range k] in
    order and each member index [j] of [range n] in order, the host
    [h{j+1}-{vlanBase+i}] of class [VLANHost] tagged with
    [vlanBase + i], and after all groups the [n] untagged hosts
    [h{j+1}]; the links join each host, in the same order, to the one
    switch [s1].  For [k = 2], [n = 2], [vlanBase = 100] the hosts are
    [h1-100, h2-100, h1-101, h2-101, h1, h2], with six links to
    [s1]. *)
Theorem build_follows_algorithm k n vlanBase :
  hosts (make k n vlanBase)
    = (i ← range k;
       (λ j, ("h" +:+ pretty (j + 1) +:+ "-" +:+ pretty (vlanBase + i),
              mkNode false (Some "VLANHost")
                {[ "vlan" := VInt (vlanBase + i) ]})) <$> range n)
      ++ ((λ j, ("h" +:+ pretty (j + 1), mkNode false None ∅)) <$> range n) ∧
  links (make k n vlanBase)
    = (λ e, (e.1, "s1")) <$> hosts (make k n vlanBase) ∧
  switches (make k n vlanBase) = [("s1", mkNode true None ∅)] ∧
  (hosts (make 2 2 100)).*1
    = ["h1-100"; "h2-100"; "h1-101"; "h2-101"; "h1"; "h2"] ∧
  links (make 2 2 100)
    = [("h1-100", "s1"); ("h2-100", "s1"); ("h1-101", "s1");
       ("h2-101", "s1"); ("h1", "s1"); ("h2", "s1")].
Proof.
  rewrite hosts_make, switches_make. split_and!.
  - reflexivity.
  - by rewrite make_eq.
  - reflexivity.
  - vm_compute. reflexivity.
  - vm_compute. reflexivity.
Qed.

End VLANStarTopoProps.

(** ** More on the retagging procedure *)

Module VLANHostMore.
Import HostOps VLANHost VLANHostProps Runs.

Section Facts.
Context {R : Type}.
Variable super_config : gmap string PyVal → M R.
Variable shell : Host → string → string.

(** X1.  When the generic step raises, [config] raises the same
    exception and the host is the one the generic step left: none of
    the four commands is issued, and [ip] is not even looked up. *)
Theorem config_super_raises params h V e h1 :
  params !! "vlan" = Some V → V ≠ VNone →
  call_super super_config (delete "vlan" params) h = (Raise e, h1) →
  config super_config shell params h = (Raise e, h1).
Proof.
  intros HV HVn Hsup.
  unfold config. rewrite (pop_vlan_present _ _ HV).
  rewrite (bool_decide_eq_true_2 _ HVn).
  mstep by reflexivity.
  by erewrite bind_raise.
Qed.

(** X2.  On a host whose default-interface accessor yields [None],
    nothing is undone: the four commands are issued for the name
    [None], then the renaming raises the attribute error; [nameToIntf]
    and the interfaces are as the generic step left them. *)
Theorem config_no_interface params h V P r h1 :
  params !! "vlan" = Some V → V ≠ VNone →
  params !! "ip" = Some P →
  call_super super_config (delete "vlan" params) h = (Ok r, h1) →
  default_intf h1 = None →
  ∃ h2,
    config super_config shell params h
    = (Raise (AttributeError "'NoneType' object has no attribute 'name'"), h2) ∧
    trace h2 = trace h1 ++
      [ Cmd ("ip address del " +:+ py_str P +:+ " dev None");
        Cmd ("ip link add link None name "
             +:+ ("None." +:+ py_str V)
             +:+ " type vlan id " +:+ py_str V);
        Cmd ("ip address add " +:+ py_str P +:+ " dev "
             +:+ "None." +:+ py_str V);
        Cmd ("ip link set up dev " +:+ "None." +:+ py_str V) ] ∧
    nameToIntf h2 = nameToIntf h1 ∧
    heap h2 = heap h1.
Proof.
  intros HV HVn HP Hsup Hd.
  eexists. split; [by eapply config_run_no_intf|].
  cbn [trace nameToIntf heap]. by split_and!.
Qed.

(** X3.  The [vlan] keyword is consumed by [config] and never reaches
    the generic step: two generic steps that agree on every parameter
    set without a [vlan] key give the same [config]. *)
Theorem config_never_forwards_vlan
    (super_config' : gmap string PyVal → M R) params h :
  (∀ p h0, p !! "vlan" = None → super_config p h0 = super_config' p h0) →
  config super_config shell params h = config super_config' shell params h.
Proof.
  intros Hagree. unfold config, dict_pop.
  destruct (params !! "vlan") as [v|] eqn:HV.
  - apply bind_ext; intros _ h0.
    unfold mbind at 1 3, M_bind, call_super.
    rewrite Hagree by apply lookup_delete_eq. done.
  - apply bind_ext; intros _ h0.
    unfold mbind at 1 3, M_bind, call_super.
    rewrite Hagree by done. done.
Qed.

(** X4.  A successful [config] touches one interface and one table
    entry only: the default interface stays the default one and keeps
    its link, every other interface object is as it was, and every
    [nameToIntf] entry under another key than [I.V] is as it was. *)
Theorem config_renames_only_default params h V P r h1 i I :
  params !! "vlan" = Some V → V ≠ VNone →
  params !! "ip" = Some P →
  call_super super_config (delete "vlan" params) h = (Ok r, h1) →
  default_intf h1 = Some i →
  intf_name h1 i = Some I →
  ∃ h2, config super_config shell params h = (Ok r, h2) ∧
    default_intf h2 = Some i ∧
    link <$> heap h2 !! i = link <$> heap h1 !! i ∧
    (∀ j, j ≠ i → heap h2 !! j = heap h1 !! j) ∧
    (∀ key, key ≠ I +:+ "." +:+ py_str V →
       nameToIntf h2 !! key = nameToIntf h1 !! key).
Proof.
  intros HV HVn HP Hsup Hd HI. unfold intf_name in HI.
  destruct (heap h1 !! i) as [o|] eqn:Ho; [|done].
  injection HI as <-.
  eexists. split; [by eapply config_run|].
  unfold retagged. cbn [default_intf heap nameToIntf].
  split_and!.
  - done.
  - by rewrite lookup_insert_eq.
  - intros j Hj. by rewrite lookup_insert_ne.
  - intros key Hkey. by rewrite lookup_insert_ne.
Qed.

(** X5.  Every further call stacks one more suffix: when the generic
    step always returns and leaves the interfaces alone, [n] calls of
    [config] in a row all return and leave the default interface, first
    named [I], with the name [I] followed by [n] times [.V]. *)
Theorem config_times_stacks params V P n h i I :
  (∀ p h0, ∃ r h', super_config p h0 = (Ok r, h') ∧
                   default_intf h' = default_intf h0 ∧ heap h' = heap h0) →
  params !! "vlan" = Some V → V ≠ VNone →
  params !! "ip" = Some P →
  default_intf h = Some i →
  intf_name h i = Some I →
  ∃ h', config_times super_config shell params n h = (Ok (), h') ∧
    default_intf h' = Some i ∧
    intf_name h' i = Some (stacked (py_str V) n I).
Proof.
  intros Hsc HV HVn HP. revert h I.
  induction n as [|n IH]; intros h I Hd HI.
  - by exists h.
  - destruct (Hsc (delete "vlan" params)
                (log (SuperConfig (delete "vlan" params)) h))
      as (r & h1 & Hsup & Hd1 & Hh1).
    cbn [default_intf heap log] in Hd1, Hh1.
    unfold intf_name in HI.
    destruct (heap h !! i) as [o|] eqn:Ho; [|done].
    injection HI as <-.
    assert (config super_config shell params h
            = (Ok r, retagged h1 i o V P)) as Hrun.
    { apply config_run; [done..| congruence | congruence]. }
    destruct (IH (retagged h1 i o V P) (name o +:+ "." +:+ py_str V))
      as (h' & Htimes & Hd' & Hname').
    + unfold retagged. cbn [default_intf]. congruence.
    + unfold intf_name, retagged. cbn [heap]. by rewrite lookup_insert_eq.
    + exists h'. split; [|done].
      cbn [config_times]. by erewrite bind_ok.
Qed.

End Facts.

(** *** The theorems on sample hosts *)

Lemma config_super_raises_witness :
  config failing_config Sample.quiet Sample.params Sample.h1
  = (Raise (OtherError "generic configuration failed"),
     log (SuperConfig Sample.rest) Sample.h1).
Proof.
  apply (config_super_raises failing_config Sample.quiet
           Sample.params Sample.h1 (VInt 100));
    [reflexivity | discriminate | reflexivity].
Defined.

Lemma config_no_interface_witness :
  ∃ h2,
    Sample.run Sample.params bare
    = (Raise (AttributeError "'NoneType' object has no attribute 'name'"), h2) ∧
    trace h2 = trace (Sample.after_generic Sample.rest bare) ++
      [ Cmd "ip address del 10.0.0.1/8 dev None";
        Cmd "ip link add link None name None.100 type vlan id 100";
        Cmd "ip address add 10.0.0.1/8 dev None.100";
        Cmd "ip link set up dev None.100" ] ∧
    nameToIntf h2 = ∅ ∧
    heap h2 = ∅.
Proof.
  apply (config_no_interface Sample.node_config Sample.quiet
           Sample.params bare (VInt 100) (VStr "10.0.0.1/8") []
           (Sample.after_generic Sample.rest bare));
    [reflexivity | discriminate | reflexivity | reflexivity | reflexivity].
Defined.

Lemma config_never_forwards_vlan_witness :
  Sample.run Sample.params Sample.h1
  = config strict_config Sample.quiet Sample.params Sample.h1.
Proof.
  apply (config_never_forwards_vlan Sample.node_config Sample.quiet
           strict_config Sample.params Sample.h1).
  intros p h0 Hp. unfold strict_config. rewrite Hp. reflexivity.
Defined.

Lemma config_renames_only_default_witness :
  ∃ h2, Sample.run Sample.params dual = (Ok [], h2) ∧
    default_intf h2 = Some 1%positive ∧
    link <$> heap h2 !! 1%positive
      = link <$> heap (Sample.after_generic Sample.rest dual) !! 1%positive ∧
    (∀ j, j ≠ 1%positive →
       heap h2 !! j = heap (Sample.after_generic Sample.rest dual) !! j) ∧
    (∀ key, key ≠ "h1-eth0.100" →
       nameToIntf h2 !! key
       = nameToIntf (Sample.after_generic Sample.rest dual) !! key).
Proof.
  apply (config_renames_only_default Sample.node_config Sample.quiet
           Sample.params dual (VInt 100) (VStr "10.0.0.1/8") []
           (Sample.after_generic Sample.rest dual) 1%positive "h1-eth0");
    [reflexivity | discriminate | reflexivity | reflexivity
    | reflexivity | reflexivity].
Defined.

Lemma config_times_stacks_witness :
  ∃ h', config_times Sample.node_config Sample.quiet Sample.params 3 Sample.h1
        = (Ok (), h') ∧
    default_intf h' = Some 1%positive ∧
    intf_name h' 1%positive = Some "h1-eth0.100.100.100".
Proof.
  apply (config_times_stacks Sample.node_config Sample.quiet
           Sample.params (VInt 100) (VStr "10.0.0.1/8") 3 Sample.h1
           1%positive "h1-eth0");
    [ | reflexivity | discriminate | reflexivity | reflexivity | reflexivity].
  intros p h0. eexists _, _. split_and!; reflexivity.
Defined.

End VLANHostMore.

(** ** Names of VLAN interfaces *)

Module IntfNames.
Import Runs.

Lemma lacks_pretty_N_go (c : ascii) (x : N) (s : string) :
  (∀ d : N, pretty_N_char d ≠ c) →
  lacks c s → lacks c (pretty_N_go x s).
Proof.
  intros Hc. revert s. induction (N.lt_wf_0 x) as [x _ IH]; intros s Hs.
  destruct (decide (x = 0)%N) as [->|Hx]; [by rewrite pretty_N_go_0|].
  rewrite pretty_N_go_step by lia.
  apply IH; [apply N.div_lt; lia|]. by split.
Qed.

Lemma digit_not_dot (d : N) : pretty_N_char d ≠ "."%char.
Proof. unfold pretty_N_char. by repeat case_match. Qed.

Lemma lacks_dot_pretty_Z (z : Z) : lacks "."%char (pretty z).
Proof.
  assert (∀ x : N, lacks "."%char (pretty x)) as HN.
  { intros x. unfold pretty, pretty_N. case_decide; [by compute|].
    by apply lacks_pretty_N_go; [apply digit_not_dot|]. }
  destruct z as [|p|p]; [by compute|apply (HN (N.pos p))|].
  split; [done|]. apply (HN (N.pos p)).
Qed.

Lemma dot_in_app (s d : string) : ¬ lacks "."%char (s +:+ "." +:+ d).
Proof.
  induction s as [|a s IH]; intros H.
  - destruct H as [H _]. by destruct H.
  - destruct H as [_ H]. by apply IH.
Qed.

(** What follows the last dot is determined by the whole string. *)
Lemma last_dot_split (s1 s2 d1 d2 : string) :
  lacks "."%char d1 → lacks "."%char d2 →
  s1 +:+ "." +:+ d1 = s2 +:+ "." +:+ d2 → s1 = s2 ∧ d1 = d2.
Proof.
  revert s2. induction s1 as [|a s1 IH]; intros [|b s2] H1 H2 E.
  - by injection E.
  - injection E as _ E. destruct (dot_in_app s2 d2). by rewrite <- E.
  - injection E as _ E. destruct (dot_in_app s1 d1). by rewrite E.
  - injection E as -> E. destruct (IH s2 H1 H2 E) as [-> ->]. done.
Qed.

(** X6.  For integer VLAN ids the name [f'{intf}.{vlan}'] determines
    both the interface name and the id: two retaggings give the same
    new name only for the same interface name and the same VLAN id. *)
Theorem vlan_intf_name_inj (I1 I2 : string) (v1 v2 : Z) :
  I1 +:+ "." +:+ py_str (VInt v1) = I2 +:+ "." +:+ py_str (VInt v2) →
  I1 = I2 ∧ v1 = v2.
Proof.
  intros E. cbn [py_str] in E.
  apply last_dot_split in E as [-> E]; [|apply lacks_dot_pretty_Z..].
  by apply (inj pretty) in E.
Qed.

Lemma vlan_intf_name_inj_witness :
  "h1-eth0" = "h1-eth0" ∧ 100 = 100.
Proof.
  apply (vlan_intf_name_inj "h1-eth0" "h1-eth0" 100 100). reflexivity.
Defined.

End IntfNames.

(** ** More on the star topology *)

Module VLANStarTopoMore.
Import Topo VLANStarTopo VLANStarTopoProps.


(** X8.  For all integers [k], [n] and [vlanBase], the topology has
    [max(k,0) * max(n,0) + max(n,0)] hosts and as many links, of which
    [max(k,0) * max(n,0)] hosts carry a VLAN tag. *)
Theorem build_sizes k n vlanBase :
  Z.of_nat (length (hosts (make k n vlanBase)))
    = Z.max 0 k * Z.max 0 n + Z.max 0 n ∧
  Z.of_nat (length (links (make k n vlanBase)))
    = Z.max 0 k * Z.max 0 n + Z.max 0 n ∧
  Z.of_nat (length (tagged (make k n vlanBase)))
    = Z.max 0 k * Z.max 0 n.
Proof.
  split_and!.
  - rewrite hosts_make, length_star_hosts. nia.
  - rewrite make_eq. cbn [links]. unfold star_links.
    rewrite length_fmap, length_star_hosts. nia.
  - rewrite tagged_make. unfold range.
    rewrite (length_bind_const _ _ (Z.to_nat n)).
    + rewrite length_seqZ. nia.
    + intros i. by rewrite length_fmap, length_seqZ.
Qed.

(** X9.  The topology has no host exactly when [n <= 0], no link
    exactly when [n <= 0], and no tagged host exactly when [k <= 0] or
    [n <= 0]. *)
Theorem build_empty_iff k n vlanBase :
  (hosts (make k n vlanBase) = [] ↔ n ≤ 0) ∧
  (links (make k n vlanBase) = [] ↔ n ≤ 0) ∧
  (tagged (make k n vlanBase) = [] ↔ k ≤ 0 ∨ n ≤ 0).
Proof.
  split_and!; rewrite <- length_zero_iff_nil.
  - rewrite hosts_make, length_star_hosts. nia.
  - rewrite make_eq. cbn [links]. unfold star_links.
    rewrite length_fmap, length_star_hosts. nia.
  - rewrite tagged_make. unfold range.
    rewrite (length_bind_const _ _ (Z.to_nat n)).
    + rewrite length_seqZ. nia.
    + intros i. by rewrite length_fmap, length_seqZ.
Qed.

Lemma filter_by_name_once (s1 x : string) (es : list (string * NodeSpec)) :
  NoDup es.*1 → x ∈ es.*1 →
  length (filter (λ l : string * string, l.1 = x) ((λ e, (e.1, s1)) <$> es))
  = 1%nat.
Proof.
  induction es as [|e es IH]; intros Hnd Hx.
  - by apply elem_of_nil in Hx.
  - cbn in Hnd, Hx. apply NoDup_cons in Hnd as [Hfresh Hnd].
    cbn [fmap list_fmap].
    destruct (decide (e.1 = x)) as [<-|Hne].
    + rewrite filter_cons_True by done. cbn [length]. f_equal.
      rewrite filter_none; [done|].
      apply Forall_forall. intros l (e' & -> & He')%list_elem_of_fmap E.
      cbn in E. apply Hfresh. rewrite <- E. apply list_elem_of_fmap. by exists e'.
    + rewrite filter_cons_False by done.
      apply IH; [done|].
      apply elem_of_cons in Hx as [Hx|Hx]; [by subst|done].
Qed.

(** X10.  Every host of the topology is linked exactly once, and to
    the switch [s1]. *)
Theorem each_host_linked_once k n vlanBase x :
  x ∈ (hosts (make k n vlanBase)).*1 →
  length (filter (λ l : string * string, l.1 = x) (links (make k n vlanBase)))
    = 1%nat ∧
  (x, "s1") ∈ links (make k n vlanBase).
Proof.
  rewrite hosts_make, make_eq. cbn [links]. unfold star_links. intros Hx.
  split.
  - apply filter_by_name_once; [|done].
    by apply NoDup_cons_1_2 with "s1", star_hosts_names_NoDup.
  - apply list_elem_of_fmap in Hx as (e & -> & He).
    apply list_elem_of_fmap. by exists e.
Qed.

Lemma each_host_linked_once_witness :
  length (filter (λ l : string * string, l.1 = "h2-101")
            (links (make 2 2 100))) = 1%nat ∧
  ("h2-101", "s1") ∈ links (make 2 2 100).
Proof.
  apply (each_host_linked_once 2 2 100 "h2-101").
  apply (bool_decide_unpack _). vm_compute. exact I.
Defined.

(** X11.  One more group leaves the groups there are as they are: the
    tagged hosts for [k + 1] groups are those for [k] groups followed
    by the [n] hosts of the new group, tagged [vlanBase + k]. *)
Theorem build_add_group k n vlanBase :
  0 ≤ k →
  tagged (make (k + 1) n vlanBase)
  = tagged (make k n vlanBase)
    ++ ((λ j, ("h" +:+ pretty (j + 1) +:+ "-" +:+ pretty (vlanBase + k),
               mkNode false (Some "VLANHost")
                 {[ "vlan" := VInt (vlanBase + k) ]})) <$> range n).
Proof.
  intros Hk. rewrite !tagged_make. unfold range.
  rewrite (seqZ_app 0 k 1) by lia. rewrite bind_app. f_equal.
  rewrite (seqZ_cons _ 1) by lia. rewrite (seqZ_nil _ (Z.pred 1)) by lia.
  rewrite bind_cons. cbn. rewrite app_nil_r. by rewrite Z.add_0_l.
Qed.

Lemma build_add_group_witness :
  tagged (make (1 + 1) 2 100)
  = tagged (make 1 2 100)
    ++ ((λ j, ("h" +:+ pretty (j + 1) +:+ "-" +:+ pretty (100 + 1),
               mkNode false (Some "VLANHost")
                 {[ "vlan" := VInt (100 + 1) ]})) <$> range 2).
Proof. apply (build_add_group 1 2 100). lia. Defined.

End VLANStarTopoMore.

(** ** Configuring the hosts of the star topology *)

Module StarHostConfig.
Import HostOps VLANHostProps VLANStarTopoProps.

Section Facts.
Context {R : Type}.
Variable super_config : gmap string PyVal → M R.
Variable shell : Host → string → string.

(** X12.  The descriptors [build] creates fit [VLANHost.config]: a
    host of class [VLANHost] in the topology is some [h{j+1}-{vlan}]
    with [vlan = vlanBase + i], and [config] called with parameters
    that include the descriptor's and an address passes its assertion
    and, once the generic step has returned on an interface named [I],
    leaves the default interface named [I.vlan], with the same [vlan]
    as in the host's name. *)
Theorem star_vlan_host_config k n vlanBase e params P h r h1 d I :
  e ∈ Topo.hosts (VLANStarTopo.make k n vlanBase) →
  Topo.cls e.2 = Some "VLANHost" →
  Topo.opts e.2 ⊆ params →
  params !! "ip" = Some P →
  VLANHost.call_super super_config (delete "vlan" params) h = (Ok r, h1) →
  default_intf h1 = Some d →
  intf_name h1 d = Some I →
  ∃ i j h2,
    0 ≤ i < k ∧ 0 ≤ j < n ∧
    e.1 = "h" +:+ pretty (j + 1) +:+ "-" +:+ pretty (vlanBase + i) ∧
    VLANHost.config super_config shell params h = (Ok r, h2) ∧
    intf_name h2 d = Some (I +:+ "." +:+ pretty (vlanBase + i)) ∧
    nameToIntf h2 !! (I +:+ "." +:+ pretty (vlanBase + i)) = Some d.
Proof.
  rewrite hosts_make.
  intros [(i & j & Hi & Hj & ->) | (j & _ & ->)]%elem_of_star_hosts
         Hcls Hsub HP Hsup Hd HI; [|done].
  assert (params !! "vlan" = Some (VInt (vlanBase + i))) as HV.
  { eapply lookup_weaken; [|exact Hsub]. apply lookup_singleton_eq. }
  unfold intf_name in HI.
  destruct (heap h1 !! d) as [o|] eqn:Ho; [|done].
  injection HI as <-.
  exists i, j. eexists. split_and!; [lia| lia| lia| lia| done| | |].
  - by eapply config_run.
  - unfold intf_name, VLANHost.retagged. cbn [heap].
    by rewrite lookup_insert_eq.
  - unfold VLANHost.retagged. cbn [nameToIntf].
    by rewrite lookup_insert_eq.
Qed.

End Facts.

Lemma star_vlan_host_config_witness :
  ∃ i j h2,
    0 ≤ i < 2 ∧ 0 ≤ j < 2 ∧
    "h1-100" = "h" +:+ pretty (j + 1) +:+ "-" +:+ pretty (100 + i) ∧
    Sample.run Sample.params Sample.h1 = (Ok [], h2) ∧
    intf_name h2 1%positive = Some ("h1-eth0" +:+ "." +:+ pretty (100 + i)) ∧
    nameToIntf h2 !! ("h1-eth0" +:+ "." +:+ pretty (100 + i)) = Some 1%positive.
Proof.
  apply (star_vlan_host_config Sample.node_config Sample.quiet 2 2 100
           ("h1-100", Topo.mkNode false (Some "VLANHost") {[ "vlan" := VInt 100 ]})
           Sample.params (VStr "10.0.0.1/8") Sample.h1 []
           (Sample.after_generic Sample.rest Sample.h1) 1%positive "h1-eth0").
  - apply list_elem_of_In. vm_compute. left. reflexivity.
  - reflexivity.
  - apply (bool_decide_unpack _). vm_compute. exact I.
  - reflexivity.
  - reflexivity.
  - reflexivity.
  - reflexivity.
Defined.

End StarHostConfig.
